(** * vot.experiment: the experiment contract and the run loop

    A shallow embedding of [vot/experiment/__init__.py]: the [Experiment]
    base class ([identifier], [_get_runtime], [results], [log],
    [transform]) and the top-level [run_experiment] loop with its local
    [EvaluationProgress] class.

    Python numbers are embedded as [Z] (int) and [Q] (finite float,
    with rounding idealised away).  What a float operation does at the
    edge of the double range is kept: [float] of an int too large for a
    double raises, a division by zero raises and a quotient too large
    for a double is an infinity.
    Exceptions are values of [exn]; effectful code lives in a small
    state-and-error monad [Eff]. *)

From Stdlib Require Import ZArith QArith Qabs Qminmax Lia Lqa.
From stdpp Require Import base option strings list sorting gmap.

Local Open Scope string_scope.

(** ** Python values *)

(** A number as found in a configuration dictionary or in sequence
    metadata: an [int] or a [float]. *)
Inductive number :=
| PyInt (z : Z)
| PyFloat (q : Q).

(** The builtin [int(v)]: floats are truncated towards zero. *)
Definition py_int (v : number) : Z :=
  match v with
  | PyInt z => z
  | PyFloat q => Z.quot (Qnum q) (Zpos (Qden q))
  end.

(** The value of a number, as a rational. *)
Definition value_of (v : number) : Q :=
  match v with
  | PyInt z => inject_Z z
  | PyFloat q => q
  end.

(** [a < b] on numbers; Python compares ints and floats by value. *)
Definition num_ltb (a b : number) : bool :=
  negb (Qle_bool (value_of b) (value_of a)).

(** A float as an operation can produce it: finite or an infinity. *)
Inductive pyfloat :=
| Finite (q : Q)
| Infinity (negative : bool).

Coercion Finite : Q >-> pyfloat.

(** A magnitude from [2^1024 - 2^970] on does not round to a finite
    double. *)
Definition overflow_bound : Z := (2 ^ 1024 - 2 ^ 970)%Z.

(** [d.get(key, default)] on a dictionary with string keys. *)
Definition dict_get {V} (d : gmap string V) (key : string) (dflt : V) : V :=
  default dflt (d !! key).

(** ** Collaborators of the experiment *)

Record Tracker := {
  tracker_identifier : string
}.

Record Sequence := {
  sequence_name : string;
  sequence_length : nat;
  sequence_metadata : gmap string number
}.

(** [sequence.metadata(key, default)] *)
Definition metadata (sequence : Sequence) (key : string) (dflt : number) : number :=
  dict_get (sequence_metadata sequence) key dflt.

(** [TrackerException]: the offending tracker, a message and the
    optionally captured tracker output. *)
Record TrackerException := {
  te_tracker : Tracker;
  te_message : string;
  te_log : option string
}.

Inductive exn :=
| ConfigurationError (msg : string)
| ZeroDivisionError
| TrackerExc (te : TrackerException)
| OtherError (kind : string)
| OverflowError.

(** The builtin [float(v)]: an int too large for a double raises
    [OverflowError]. *)
Definition py_float (v : number) : exn + Q :=
  match v with
  | PyInt z =>
      if (overflow_bound <=? Z.abs z)%Z
      then inl OverflowError
      else inr (inject_Z z)
  | PyFloat q => inr q
  end.

(** [int] and [float] as the [conversion] argument of [to_number]. *)
Definition int_conversion (v : number) : exn + number :=
  inr (PyInt (py_int v)).

Definition float_conversion (v : number) : exn + number :=
  match py_float v with
  | inr q => inr (PyFloat q)
  | inl e => inl e
  end.

Definition is_tracker_exception (e : exn) : bool :=
  match e with
  | TrackerExc _ => true
  | _ => false
  end.

Definition is_configuration_error (e : exn) : bool :=
  match e with
  | ConfigurationError _ => true
  | _ => false
  end.

(** ** State and error monad *)

Definition Eff (S A : Type) : Type := S → (exn + A) * S.

Global Instance Eff_ret {S} : MRet (Eff S) := λ A a s, (inr a, s).

Global Instance Eff_bind {S} : MBind (Eff S) := λ A B k m s,
  match m s with
  | (inr a, s') => k a s'
  | (inl e, s') => (inl e, s')
  end.

Definition raise {S A} (e : exn) : Eff S A := λ s, (inl e, s).

(** A computation that can only fail or return, run inside [Eff]. *)
Definition lift {S A} (r : exn + A) : Eff S A := λ s, (r, s).

Definition modify {S} (f : S → S) : Eff S () := λ s, (inr tt, f s).

(** ** Numbers from configuration *)

(** Modelled from the spec: [to_number] of [vot.utilities] is not part of
    the sources at hand.  The call sites pass a value, a lower bound
    [min_n] and a [conversion] ([int] unless given).  Section 4.2 of the
    specification reads the bound [min_n=0] on [grace] as "grace must be
    >= 0", with 0 the default, so the bound is inclusive: the converted
    value is rejected with a configuration error exactly when it is
    below [min_n].  What the conversion itself raises is not a
    configuration error and passes through. *)
Definition to_number (val : number) (min_n : number)
    (conversion : number → exn + number) : exn + number :=
  match conversion val with
  | inr n =>
      if num_ltb n min_n
      then inl (ConfigurationError "Parameter lower than minimum allowed value")
      else inr n
  | inl e => inl e
  end.

(** The float [1 / d] for a float [d] other than zero: the quotient, or
    an infinity of the sign of [d] when the quotient is too large for a
    double. *)
Definition float_inverse (d : Q) : pyfloat :=
  if Qle_bool (inject_Z overflow_bound) (Qabs (1 / d))
  then Infinity (negb (Qle_bool 0 d))
  else Finite (1 / d).

(** [1 / d] on floats. *)
Definition py_inverse (d : Q) : exn + pyfloat :=
  if Qeq_bool d 0 then inl ZeroDivisionError else inr (float_inverse d).

(** ** Runtimes *)

(** The runtime a tracker hands out, and the pacing wrapper of
    [vot.tracker] around one; the wrapper is kept as the record of its
    constructor arguments. *)
Inductive Runtime :=
| TrackerRuntime (tracker : string) (serial : nat)
| RealtimeTrackerRuntime (runtime : Runtime) (grace : number) (interval : pyfloat).

(** What [_get_runtime] can touch: the runtimes spawned so far, by
    tracker identifier, oldest first. *)
Record World := {
  spawned : list string
}.

(** [tracker.runtime()] *)
Definition runtime (tracker : Tracker) : Eff World Runtime := λ w,
  (inr (TrackerRuntime (tracker_identifier tracker) (length (spawned w))),
   {| spawned := spawned w ++ [tracker_identifier tracker] |}).

(** ** Storage *)

(** Modelled from the spec: the storage backend is an external
    collaborator (sections 3 and 6).  It hands out a results sink per
    (tracker, experiment, sequence) and opens a named log sink per
    identifier. *)
Record Storage := {
  storage_root : string
}.

Record Results := {
  results_storage : Storage;
  results_tracker : string;
  results_experiment : string;
  results_sequence : string
}.

Record LogHandle := {
  log_storage : Storage;
  log_name : string
}.

Definition open_log (storage : Storage) (identifier : string) : LogHandle :=
  {| log_storage := storage; log_name := identifier |}.

(** ** class Experiment *)

(** A transformer is a callable on sequences; like any call it may raise. *)
Definition Transformer : Type := Sequence → exn + Sequence.

Record Experiment := {
  _identifier : string;
  _storage : Storage;
  _transformers : list Transformer;
  _realtime : option (gmap string number);
  _noise : option (gmap string number);
  _inject : option (gmap string number)
}.

(** [Experiment.__init__] *)
Definition Experiment_init (identifier : string) (storage : Storage)
    (transformers : list Transformer)
    (realtime noise inject : option (gmap string number)) : Experiment :=
  {| _identifier := identifier;
     _transformers := transformers;
     _storage := storage;
     _realtime := realtime;
     _noise := noise;
     _inject := inject |}.

(** The [identifier] property. *)
Definition identifier (self : Experiment) : string := _identifier self.

(** Modelled from the spec: [storage.results(tracker, experiment,
    sequence)] of the storage backend, which is not part of the sources
    at hand.  The call gets the experiment object itself; what the
    backend reads of it is up to the backend. *)
Class ResultsBackend := {
  storage_results : Storage → Tracker → Experiment → Sequence → Results
}.

(** Modelled from the spec: the experiment's identifier is the namespace
    key into storage (section 3), so that a backend tells experiments
    apart by their identifier only. *)
Definition keyed_by_identifier `{ResultsBackend} : Prop :=
  ∀ storage tracker e1 e2 sequence,
    identifier e1 = identifier e2 →
    storage_results storage tracker e1 sequence
    = storage_results storage tracker e2 sequence.

(** [Experiment._get_runtime] *)
Definition _get_runtime (self : Experiment) (tracker : Tracker)
    (sequence : Sequence) : Eff World Runtime :=
  match _realtime self with
  | Some realtime =>
      grace ← lift (to_number (dict_get realtime "grace" (PyInt 0))
                              (PyInt 0) int_conversion);
      fps ← lift (to_number (dict_get realtime "fps" (PyInt 20))
                            (PyInt 0) float_conversion);
      rate ← lift (py_float (metadata sequence "fps" fps));
      interval ← lift (py_inverse rate);
      inner ← runtime tracker;
      mret (RealtimeTrackerRuntime inner grace interval)
  | None => runtime tracker
  end.

(** [Experiment.results] *)
Definition results `{ResultsBackend} (self : Experiment) (tracker : Tracker)
    (sequence : Sequence) : Results :=
  storage_results (_storage self) tracker self sequence.

(** [Experiment.log] *)
Definition log (self : Experiment) (identifier : string) : LogHandle :=
  open_log (_storage self) identifier.

(** The loop of [Experiment.transform] over the remaining transformers. *)
Fixpoint apply_transformers (transformers : list Transformer)
    (sequence : Sequence) : exn + Sequence :=
  match transformers with
  | [] => inr sequence
  | transformer :: rest =>
      match transformer sequence with
      | inr sequence' => apply_transformers rest sequence'
      | inl e => inl e
      end
  end.

(** [Experiment.transform] *)
Definition transform (self : Experiment) (sequence : Sequence) : exn + Sequence :=
  apply_transformers (_transformers self) sequence.

(** ** The progress bar *)

(** Modelled from the spec: [Progress] of [vot.utilities] is not part of
    the sources at hand.  It is kept as its constructor arguments, the
    position last set through [update_absolute] (0 on creation) and the
    history of the positions set. *)
Record Progress := {
  desc : string;
  total : nat;
  unit_name : string;
  position : Q;
  updates : list Q
}.

Definition Progress_init (description : string) (n : nat) (unit_ : string) : Progress :=
  {| desc := description; total := n; unit_name := unit_;
     position := 0%Q; updates := [] |}.

Definition update_absolute (self : Progress) (value : Q) : Progress :=
  {| desc := desc self; total := total self; unit_name := unit_name self;
     position := value; updates := updates self ++ [value] |}.

(** The builtins [max(a, b)] and [min(a, b)]: the first argument is kept
    unless the second is strictly larger (smaller). *)
Definition py_max (a b : Q) : Q := if Qle_bool b a then a else b.
Definition py_min (a b : Q) : Q := if Qle_bool a b then a else b.

(** ** class EvaluationProgress *)

Record EvaluationProgress := {
  bar : Progress;
  _finished : Z
}.

(** [EvaluationProgress.__init__] *)
Definition EvaluationProgress_init (description : string) (n : nat) : EvaluationProgress :=
  {| bar := Progress_init description n "sequence"; _finished := 0 |}.

(** The value [__call__] hands to the bar. *)
Definition reported (finished : Z) (progress : Q) : Q :=
  (inject_Z finished + py_min 1 (py_max 0 progress))%Q.

(** [EvaluationProgress.__call__] *)
Definition EvaluationProgress_call (self : EvaluationProgress) (progress : Q)
    : EvaluationProgress :=
  {| bar := update_absolute (bar self) (reported (_finished self) progress);
     _finished := _finished self |}.

(** [EvaluationProgress.push] *)
Definition push (self : EvaluationProgress) : EvaluationProgress :=
  let finished := (_finished self + 1)%Z in
  {| bar := update_absolute (bar self) (inject_Z finished);
     _finished := finished |}.

(** ** The run loop *)

(** What one call of [experiment.execute] shows to its caller: the values
    it passed to the callback, in order, and the exception it raised, if
    any. *)
Record Execution := {
  reports : list Q;
  raised : option exn
}.

(** The abstract method [execute] of a concrete experiment.  [Ext] is
    whatever the implementation works on (tracker processes, stored
    results); the call takes and returns it.  The second abstract method,
    [scan], is not called from this module. *)
Class Protocol (Ext : Type) := {
  execute : Experiment → Tracker → Sequence → bool → Ext → Execution * Ext
}.

Inductive Call :=
| CallTransform (sequence : Sequence)
| CallExecute (sequence : Sequence) (force : bool).

Inductive Level := ERROR | DEBUG.

Record LogRecord := {
  level : Level;
  message : string
}.

(** Everything [run_experiment] acts on: its progress object, the "vot"
    logger, the log files written through storage, the calls made on the
    experiment and the state behind [execute]. *)
Record LoopState (Ext : Type) := {
  progress : EvaluationProgress;
  logger : list LogRecord;
  logfiles : list (LogHandle * string);
  calls : list Call;
  ext : Ext
}.

Arguments progress {Ext} _.
Arguments logger {Ext} _.
Arguments logfiles {Ext} _.
Arguments calls {Ext} _.
Arguments ext {Ext} _.

Section RunLoop.
Context {Ext : Type} `{Protocol Ext}.

Definition State : Type := LoopState Ext.

Definition with_progress (f : EvaluationProgress → EvaluationProgress)
    (st : State) : State :=
  {| progress := f (progress st); logger := logger st;
     logfiles := logfiles st; calls := calls st; ext := ext st |}.

Definition with_ext (x : Ext) (st : State) : State :=
  {| progress := progress st; logger := logger st;
     logfiles := logfiles st; calls := calls st; ext := x |}.

Definition record_call (c : Call) (st : State) : State :=
  {| progress := progress st; logger := logger st;
     logfiles := logfiles st; calls := calls st ++ [c]; ext := ext st |}.

Definition emit (lvl : Level) (msg : string) (st : State) : State :=
  {| progress := progress st;
     logger := logger st ++ [{| level := lvl; message := msg |}];
     logfiles := logfiles st; calls := calls st; ext := ext st |}.

(** [flog.write(content)] *)
Definition write (flog : LogHandle) (content : string) (st : State) : State :=
  {| progress := progress st; logger := logger st;
     logfiles := logfiles st ++ [(flog, content)];
     calls := calls st; ext := ext st |}.

(** [experiment.execute(tracker, sequence, force=force, callback=progress)]:
    every reported value goes through [progress.__call__]. *)
Definition call_execute (experiment : Experiment) (tracker : Tracker)
    (sequence : Sequence) (force : bool) : Eff State (option exn) := λ st,
  let '(execution, x) := execute experiment tracker sequence force (ext st) in
  (inr (raised execution),
   with_ext x
     (with_progress
        (λ p, foldl EvaluationProgress_call p (reports execution)) st)).

(** The body of the [except TrackerException as te] clause. *)
Definition handle (experiment : Experiment) (persist : bool)
    (te : TrackerException) : Eff State () :=
  modify (emit ERROR ("Tracker " ++ tracker_identifier (te_tracker te)
                      ++ " encountered an error: " ++ te_message te)) ;;
  modify (emit DEBUG (te_message te)) ;;
  match te_log te with
  | Some content =>
      let flog := log experiment (tracker_identifier (te_tracker te)) in
      modify (write flog content) ;;
      modify (emit ERROR ("Tracker output writtent to file: " ++ log_name flog))
  | None => mret ()
  end ;;
  if negb persist then raise (TrackerExc te) else mret ().

(** One iteration of the [for sequence in sequences] loop. *)
Definition run_sequence (experiment : Experiment) (tracker : Tracker)
    (force persist : bool) (sequence : Sequence) : Eff State () :=
  modify (record_call (CallTransform sequence)) ;;
  sequence' ← lift (transform experiment sequence);
  modify (record_call (CallExecute sequence' force)) ;;
  outcome ← call_execute experiment tracker sequence' force;
  match outcome with
  | None => mret ()
  | Some (TrackerExc te) => handle experiment persist te
  | Some e => raise e
  end ;;
  modify (with_progress push).

Fixpoint run_loop (experiment : Experiment) (tracker : Tracker)
    (force persist : bool) (sequences : list Sequence) : Eff State () :=
  match sequences with
  | [] => mret ()
  | sequence :: rest =>
      run_sequence experiment tracker force persist sequence ;;
      run_loop experiment tracker force persist rest
  end.

(** The state [run_experiment] starts from. *)
Definition initial_state (experiment : Experiment) (tracker : Tracker)
    (sequences : list Sequence) (x : Ext) : State :=
  {| progress :=
       EvaluationProgress_init
         (tracker_identifier tracker ++ "/" ++ identifier experiment)
         (length sequences);
     logger := []; logfiles := []; calls := []; ext := x |}.

(** [run_experiment] *)
Definition run_experiment (experiment : Experiment) (tracker : Tracker)
    (sequences : list Sequence) (force persist : bool) (x : Ext)
    : (exn + ()) * State :=
  run_loop experiment tracker force persist sequences
    (initial_state experiment tracker sequences x).

End RunLoop.

(** ** Specification-side vocabulary *)

(** [clamp v lo hi]: [v] forced into the interval from [lo] to [hi]. *)
Definition clamp (v lo hi : Q) : Q := Qmax lo (Qmin hi v).

(** A transformer that never raises: a function on sequences. *)
Definition pure_transformer (f : Sequence → Sequence) : Transformer :=
  λ sequence, inr (f sequence).

(** [Tn (... (T2 (T1 s)))] for the list [T1; T2; ...; Tn]. *)
Definition composed (fs : list (Sequence → Sequence)) (sequence : Sequence) : Sequence :=
  foldr (λ f acc, f acc) sequence (rev fs).

(** The calls a batch makes on the experiment when each sequence of
    [sequences] is transformed into the matching one of [transformed] and
    then executed. *)
Fixpoint attempts (sequences transformed : list Sequence) (force : bool) : list Call :=
  match sequences, transformed with
  | s :: rest, s' :: rest' =>
      CallTransform s :: CallExecute s' force :: attempts rest rest' force
  | _, _ => []
  end.

Definition returned (outcome : option exn) : bool :=
  match outcome with
  | None => true
  | Some _ => false
  end.

Definition returned_or_tracker_failure (outcome : option exn) : bool :=
  match outcome with
  | None => true
  | Some e => is_tracker_exception e
  end.

(** [execute] called on each sequence in turn, as long as every outcome
    is one [allowed]; the state behind [execute] at the end. *)
Fixpoint execute_each {Ext} `{Protocol Ext} (allowed : option exn → bool)
    (experiment : Experiment) (tracker : Tracker) (force : bool)
    (sequences : list Sequence) (x : Ext) : option Ext :=
  match sequences with
  | [] => Some x
  | sequence :: rest =>
      let '(execution, x') := execute experiment tracker sequence force x in
      if allowed (raised execution)
      then execute_each allowed experiment tracker force rest x'
      else None
  end.

Section LoopVocabulary.
Context {Ext : Type}.

(** The state once [execute] has come back: both calls recorded, every
    report passed through the callback, the state behind [execute]
    replaced. *)
Definition executed (sequence sequence' : Sequence) (force : bool)
    (execution : Execution) (x : Ext) (st : LoopState Ext) : LoopState Ext :=
  with_ext x
    (with_progress
       (λ p, foldl EvaluationProgress_call p (reports execution))
       (record_call (CallExecute sequence' force)
          (record_call (CallTransform sequence) st))).

(** The state the [except] clause leaves behind. *)
Definition logged (experiment : Experiment) (te : TrackerException)
    (st : LoopState Ext) : LoopState Ext :=
  snd (handle experiment true te st).

(** The positions the bar has been set to so far. *)
Definition shown (st : LoopState Ext) : list Q :=
  updates (bar (progress st)).

(** The bar shows the number of finished sequences. *)
Definition synced (st : LoopState Ext) : Prop :=
  position (bar (progress st)) = inject_Z (_finished (progress st)).

End LoopVocabulary.

(** The exception that ends one iteration without reaching the [except]
    clause, if there is one: whatever [transform] raises, or what
    [execute] raises when it is not a [TrackerException]. *)
Definition fatal_error {Ext} `{Protocol Ext} (experiment : Experiment)
    (tracker : Tracker) (force : bool) (sequence : Sequence) (x : Ext)
    : option exn :=
  match transform experiment sequence with
  | inl err => Some err
  | inr sequence' =>
      match raised (fst (execute experiment tracker sequence' force x)) with
      | Some err => if is_tracker_exception err then None else Some err
      | None => None
      end
  end.

(** The calls one iteration makes on the experiment. *)
Definition attempt (experiment : Experiment) (force : bool)
    (sequence : Sequence) : list Call :=
  CallTransform sequence ::
  match transform experiment sequence with
  | inr sequence' => [CallExecute sequence' force]
  | inl _ => []
  end.

(** The tracker failures that [execute] raises when it is called on each
    sequence in turn. *)
Fixpoint failures {Ext} `{Protocol Ext} (experiment : Experiment)
    (tracker : Tracker) (force : bool) (sequences : list Sequence) (x : Ext)
    : list TrackerException :=
  match sequences with
  | [] => []
  | sequence :: rest =>
      let '(execution, x') := execute experiment tracker sequence force x in
      match raised execution with
      | Some (TrackerExc te) => te :: failures experiment tracker force rest x'
      | _ => failures experiment tracker force rest x'
      end
  end.

(** The log file one tracker failure leaves in storage, if any. *)
Definition written (experiment : Experiment) (te : TrackerException)
    : list (LogHandle * string) :=
  match te_log te with
  | Some content =>
      [(log experiment (tracker_identifier (te_tracker te)), content)]
  | None => []
  end.

(** The records one tracker failure leaves on the logger. *)
Definition records (experiment : Experiment) (te : TrackerException)
    : list LogRecord :=
  [ {| level := ERROR;
       message := "Tracker " ++ tracker_identifier (te_tracker te)
                  ++ " encountered an error: " ++ te_message te |};
    {| level := DEBUG; message := te_message te |} ]
  ++ match te_log te with
     | Some _ =>
         [ {| level := ERROR;
              message := "Tracker output writtent to file: "
                         ++ log_name (log experiment
                                        (tracker_identifier (te_tracker te))) |} ]
     | None => []
     end.

(** Every call of [execute] reports values that do not decrease. *)
Definition monotone_reports {Ext} `{Protocol Ext} (experiment : Experiment)
    (tracker : Tracker) (force : bool) : Prop :=
  ∀ sequence x,
    StronglySorted Qle (reports (fst (execute experiment tracker sequence force x))).

(** ** Sample data *)

Module Sample.

Definition tracker : Tracker := {| tracker_identifier := "ncc" |}.

Definition storage : Storage := {| storage_root := "results" |}.

Definition clip (name : string) : Sequence :=
  {| sequence_name := name; sequence_length := 3; sequence_metadata := ∅ |}.

Definition clip_at (name : string) (fps : number) : Sequence :=
  {| sequence_name := name; sequence_length := 3;
     sequence_metadata := {[ "fps" := fps ]} |}.

Definition world : World := {| spawned := [] |}.

(** A storage backend that files results under the identifiers of the
    tracker and the experiment and the name of the sequence. *)
Definition filing : ResultsBackend :=
  {| storage_results := λ storage tracker experiment sequence,
       {| results_storage := storage;
          results_tracker := tracker_identifier tracker;
          results_experiment := identifier experiment;
          results_sequence := sequence_name sequence |} |}.

Definition baseline (realtime : option (gmap string number)) : Experiment :=
  Experiment_init "baseline" storage [] realtime None None.

(** A transformer that renames the sequence. *)
Definition tagged (tag : string) : Sequence → Sequence := λ s,
  {| sequence_name := sequence_name s ++ tag;
     sequence_length := sequence_length s;
     sequence_metadata := sequence_metadata s |}.

Definition broken : Transformer := λ _, inl (OtherError "KeyError").

Definition crash : TrackerException :=
  {| te_tracker := tracker; te_message := "tracker terminated";
     te_log := Some "segfault" |}.

(** An implementation of [execute] that counts its calls, reports some
    progress (also outside of [0, 1]) and fails on the sequences named
    "bad" (tracker failure) and "ugly" (any other error). *)
Definition counting : Protocol nat :=
  {| execute := λ _ _ sequence _ n,
       ({| reports := [(1 # 2)%Q; (3 # 2)%Q; (-1 # 1)%Q];
           raised :=
             if String.eqb (sequence_name sequence) "bad"
             then Some (TrackerExc crash)
             else if String.eqb (sequence_name sequence) "ugly"
             then Some (OtherError "KeyError")
             else None |},
        S n) |}.

(** An implementation of [execute] that reports a quarter, a half and
    the whole of each sequence and fails on the sequences named "bad". *)
Definition steady : Protocol nat :=
  {| execute := λ _ _ sequence _ n,
       ({| reports := [(1 # 4)%Q; (1 # 2)%Q; 1%Q];
           raised :=
             if String.eqb (sequence_name sequence) "bad"
             then Some (TrackerExc crash)
             else None |},
        S n) |}.

End Sample.

(** * Properties *)

Local Open Scope list_scope.

(** ** Numbers *)

Lemma num_ltb_lt (a b : number) :
  num_ltb a b = true ↔ (value_of a < value_of b)%Q.
Proof.
  unfold num_ltb. rewrite negb_true_iff, <- not_true_iff_false, Qle_bool_iff.
  split; [apply Qnot_le_lt | apply Qlt_not_le].
Qed.

Lemma num_ltb_ge (a b : number) :
  num_ltb a b = false ↔ (value_of b <= value_of a)%Q.
Proof.
  unfold num_ltb. by rewrite negb_false_iff, Qle_bool_iff.
Qed.

Lemma to_number_accepts (val min_n : number)
    (conversion : number → exn + number) (n : number) :
  conversion val = inr n →
  (value_of min_n <= value_of n)%Q →
  to_number val min_n conversion = inr n.
Proof.
  intros Hn Hle. unfold to_number. rewrite Hn.
  by apply num_ltb_ge in Hle as ->.
Qed.

Lemma to_number_rejects (val min_n : number)
    (conversion : number → exn + number) (n : number) :
  conversion val = inr n →
  (value_of n < value_of min_n)%Q →
  ∃ msg, to_number val min_n conversion = inl (ConfigurationError msg).
Proof.
  intros Hn Hlt. unfold to_number. rewrite Hn.
  apply num_ltb_lt in Hlt as ->. by eexists.
Qed.

Lemma float_conversion_returns (v : number) (q : Q) :
  py_float v = inr q → float_conversion v = inr (PyFloat q).
Proof. unfold float_conversion. by intros ->. Qed.

Lemma inject_Z_nonneg (z : Z) : (0 ≤ z)%Z → (0 <= inject_Z z)%Q.
Proof. intros Hz. unfold Qle. simpl. lia. Qed.

Lemma inject_Z_neg (z : Z) : (z < 0)%Z → (inject_Z z < 0)%Q.
Proof. intros Hz. unfold Qlt. simpl. lia. Qed.

Lemma py_inverse_defined (d : Q) :
  ¬ (d == 0)%Q → py_inverse d = inr (float_inverse d).
Proof.
  intros Hd. unfold py_inverse.
  destruct (Qeq_bool d 0) eqn:E; [|done].
  by apply Qeq_bool_iff in E.
Qed.

Lemma py_inverse_zero (d : Q) : (d == 0)%Q → py_inverse d = inl ZeroDivisionError.
Proof.
  intros Hd. unfold py_inverse. by apply Qeq_bool_iff in Hd as ->.
Qed.

Lemma float_inverse_finite (d : Q) :
  (Qabs (1 / d) < inject_Z overflow_bound)%Q → float_inverse d = Finite (1 / d).
Proof.
  intros Hlt. unfold float_inverse.
  destruct (Qle_bool _ _) eqn:E; [|done].
  apply Qle_bool_iff in E. by apply Qlt_not_le in Hlt.
Qed.

(** ** The realtime decision *)

(** In [_get_runtime] a rejected [grace] or [fps] ends the call before
    the tracker is asked for a runtime. *)
Lemma get_runtime_rejects_negative (self : Experiment) (tracker : Tracker)
    (sequence : Sequence) (realtime : gmap string number) (w : World) :
  _realtime self = Some realtime →
  (py_int (dict_get realtime "grace" (PyInt 0)) < 0)%Z ∨
  (∃ d, py_float (dict_get realtime "fps" (PyInt 20)) = inr d ∧ (d < 0)%Q) →
  ∃ msg, _get_runtime self tracker sequence w = (inl (ConfigurationError msg), w).
Proof.
  intros Hrt Hneg. unfold _get_runtime. rewrite Hrt.
  unfold mbind, Eff_bind, lift.
  destruct (decide (py_int (dict_get realtime "grace" (PyInt 0)) < 0)%Z) as [Hg|Hg].
  - destruct (to_number_rejects (dict_get realtime "grace" (PyInt 0))
                (PyInt 0) int_conversion _ eq_refl) as [msg ->]; [|by eexists].
    by apply inject_Z_neg.
  - destruct Hneg as [?|(d & Hd & Hf)]; [done|].
    rewrite (to_number_accepts _ _ int_conversion _ eq_refl)
      by (apply inject_Z_nonneg; lia).
    destruct (to_number_rejects (dict_get realtime "fps" (PyInt 20))
                (PyInt 0) float_conversion (PyFloat d)
                (float_conversion_returns _ _ Hd)) as [msg ->];
      [done|by eexists].
Qed.

(** C7: without a realtime configuration [_get_runtime] is exactly
    [tracker.runtime()]: the tracker's own runtime, not wrapped. *)
Theorem get_runtime_plain (self : Experiment) (tracker : Tracker)
    (sequence : Sequence) (w : World) :
  _realtime self = None →
  _get_runtime self tracker sequence w = runtime tracker w ∧
  fst (_get_runtime self tracker sequence w)
    = inr (TrackerRuntime (tracker_identifier tracker) (length (spawned w))).
Proof.
  intros Hrt. unfold _get_runtime. by rewrite Hrt.
Qed.

Lemma get_runtime_plain_witness :
  _realtime (Sample.baseline None) = None ∧
  fst (_get_runtime (Sample.baseline None) Sample.tracker
         (Sample.clip "bag") Sample.world)
    = inr (TrackerRuntime "ncc" 0).
Proof.
  split; [reflexivity|].
  apply (get_runtime_plain (Sample.baseline None) Sample.tracker
           (Sample.clip "bag") Sample.world).
  reflexivity.
Defined.

(** C4: with realtime configuration [{grace: g, fps: f}], [g >= 0] an
    integer and [float(f) > 0], the runtime is the pacing wrapper around
    [tracker.runtime()] with grace [g]; its interval is the float
    [1 / float(f)] for a sequence without fps metadata and the float
    [1 / float(sf)] for a sequence that declares an fps [sf] that
    [float] accepts and that is not zero, whatever [f] is.  Where the
    quotient fits a double, that float is the quotient itself. *)
Theorem get_runtime_realtime_interval (self : Experiment) (tracker : Tracker)
    (sequence : Sequence) (realtime : gmap string number) (g : Z) (f : number)
    (rate : Q) (w : World) :
  _realtime self = Some realtime →
  realtime !! "grace" = Some (PyInt g) →
  realtime !! "fps" = Some f →
  (0 ≤ g)%Z →
  py_float f = inr rate →
  (0 < rate)%Q →
  let wrapped interval :=
    (inr (RealtimeTrackerRuntime
            (TrackerRuntime (tracker_identifier tracker) (length (spawned w)))
            (PyInt g) interval),
     snd (runtime tracker w)) in
  (sequence_metadata sequence !! "fps" = None →
   _get_runtime self tracker sequence w = wrapped (float_inverse rate)) ∧
  (∀ sf d, sequence_metadata sequence !! "fps" = Some sf →
           py_float sf = inr d →
           ¬ (d == 0)%Q →
           _get_runtime self tracker sequence w = wrapped (float_inverse d)) ∧
  (∀ d, (Qabs (1 / d) < inject_Z overflow_bound)%Q →
        float_inverse d = Finite (1 / d)).
Proof.
  intros Hrt Hg Hf Hg0 Hrate Hf0 wrapped. unfold _get_runtime. rewrite Hrt.
  unfold dict_get, metadata, dict_get. rewrite Hg, Hf. simpl.
  unfold mbind, Eff_bind, lift.
  rewrite (to_number_accepts _ _ int_conversion _ eq_refl)
    by (by apply inject_Z_nonneg).
  rewrite (to_number_accepts _ _ float_conversion _
             (float_conversion_returns _ _ Hrate))
    by (by apply Qlt_le_weak).
  split; [|split].
  - intros ->. simpl.
    rewrite py_inverse_defined; [done|].
    intros Hz. rewrite Hz in Hf0. by apply Qlt_irrefl in Hf0.
  - intros sf d -> Hd Hnz. simpl. rewrite Hd.
    by rewrite py_inverse_defined.
  - apply float_inverse_finite.
Qed.

Lemma get_runtime_realtime_interval_witness :
  _get_runtime
    (Sample.baseline (Some {[ "grace" := PyInt 3; "fps" := PyFloat (25 # 1) ]}))
    Sample.tracker (Sample.clip_at "bag" (PyInt 30)) Sample.world
  = (inr (RealtimeTrackerRuntime (TrackerRuntime "ncc" 0) (PyInt 3)
            (float_inverse 30)),
     {| spawned := ["ncc"] |})
  ∧ float_inverse 30 = Finite (1 / 30).
Proof.
  pose proof (get_runtime_realtime_interval
    (Sample.baseline (Some {[ "grace" := PyInt 3; "fps" := PyFloat (25 # 1) ]}))
    Sample.tracker (Sample.clip_at "bag" (PyInt 30))
    {[ "grace" := PyInt 3; "fps" := PyFloat (25 # 1) ]} 3 (PyFloat (25 # 1))
    (25 # 1) Sample.world) as Hclaim.
  destruct Hclaim as (_ & Hdeclared & Hfinite).
  - reflexivity.
  - reflexivity.
  - reflexivity.
  - lia.
  - reflexivity.
  - reflexivity.
  - split.
    + apply (Hdeclared (PyInt 30) 30%Q); [reflexivity|reflexivity|discriminate].
    + apply Hfinite. reflexivity.
Defined.

(** C3: a configured [fps] of zero is not rejected.  With
    [{grace: 0, fps: 0}] the bound check of [to_number] lets the value
    through; on a sequence that declares its own fps the call then asks
    the tracker for a runtime and returns the wrapper, and on a sequence
    without fps metadata it ends in a division by zero, which is not a
    configuration error. *)
Theorem get_runtime_zero_fps_not_rejected :
  let self := Sample.baseline (Some {[ "grace" := PyInt 0; "fps" := PyInt 0 ]}) in
  to_number (PyInt 0) (PyInt 0) float_conversion = inr (PyFloat 0) ∧
  _get_runtime self Sample.tracker (Sample.clip_at "bag" (PyInt 30)) Sample.world
  = (inr (RealtimeTrackerRuntime (TrackerRuntime "ncc" 0) (PyInt 0) (1 / 30)%Q),
     {| spawned := ["ncc"] |}) ∧
  _get_runtime self Sample.tracker (Sample.clip "bag") Sample.world
  = (inl ZeroDivisionError, Sample.world) ∧
  is_configuration_error ZeroDivisionError = false.
Proof. repeat split. Qed.

(** Whenever the configuration passes the checks and the effective frame
    rate is zero, [_get_runtime] ends in the division, before the tracker
    is asked for a runtime. *)
Lemma get_runtime_zero_rate (self : Experiment) (tracker : Tracker)
    (sequence : Sequence) (w : World) (realtime : gmap string number)
    (grace fps : number) (rate : Q) :
  _realtime self = Some realtime →
  to_number (dict_get realtime "grace" (PyInt 0)) (PyInt 0) int_conversion
    = inr grace →
  to_number (dict_get realtime "fps" (PyInt 20)) (PyInt 0) float_conversion
    = inr fps →
  py_float (metadata sequence "fps" fps) = inr rate →
  (rate == 0)%Q →
  _get_runtime self tracker sequence w = (inl ZeroDivisionError, w).
Proof.
  intros Hrt Hg Hf Hrate Hz. unfold _get_runtime. rewrite Hrt.
  unfold mbind, Eff_bind, lift. rewrite Hg, Hf, Hrate.
  by rewrite py_inverse_zero.
Qed.

(** C10: the division in [_get_runtime] can raise.  With a realtime
    configuration present, a sequence whose fps metadata is 0, and a
    configured fps of 0 (which passes the lower bound 0) on a sequence
    without fps metadata, both end in [ZeroDivisionError] and not in a
    configuration error. *)
Theorem get_runtime_division_by_zero_reachable :
  (∃ self tracker sequence w,
     is_Some (_realtime self) ∧
     sequence_metadata sequence !! "fps" = Some (PyInt 0) ∧
     _get_runtime self tracker sequence w = (inl ZeroDivisionError, w)) ∧
  (∃ self tracker sequence w realtime,
     _realtime self = Some realtime ∧
     realtime !! "fps" = Some (PyInt 0) ∧
     to_number (PyInt 0) (PyInt 0) float_conversion = inr (PyFloat 0) ∧
     sequence_metadata sequence !! "fps" = None ∧
     _get_runtime self tracker sequence w = (inl ZeroDivisionError, w)).
Proof.
  split.
  - exists (Sample.baseline (Some ∅)), Sample.tracker,
      (Sample.clip_at "bag" (PyInt 0)), Sample.world.
    split; [by eexists|]. split; [done|].
    by eapply get_runtime_zero_rate.
  - exists (Sample.baseline (Some {[ "fps" := PyInt 0 ]})), Sample.tracker,
      (Sample.clip "bag"), Sample.world, {[ "fps" := PyInt 0 ]}.
    do 4 (split; [done|]).
    by eapply get_runtime_zero_rate.
Qed.

(** ** The transform pipeline *)

Lemma apply_transformers_pure (fs : list (Sequence → Sequence)) (sequence : Sequence) :
  apply_transformers (map pure_transformer fs) sequence = inr (composed fs sequence).
Proof.
  revert sequence. induction fs as [|f fs IH]; intros sequence; [done|].
  simpl. rewrite IH. unfold composed. simpl. by rewrite foldr_app.
Qed.

(** C6: [transform] applies the transformers left to right, so that for
    the list [T1; ...; Tn] the result is [Tn (... (T1 S))]; with no
    transformers the sequence comes back unchanged. *)
Theorem transform_composes (self : Experiment) (sequence : Sequence) :
  (∀ fs, _transformers self = map pure_transformer fs →
         transform self sequence = inr (composed fs sequence)) ∧
  (_transformers self = [] → transform self sequence = inr sequence).
Proof.
  unfold transform. split.
  - intros fs ->. apply apply_transformers_pure.
  - by intros ->.
Qed.

Lemma transform_composes_witness :
  transform
    (Experiment_init "baseline" Sample.storage
       [pure_transformer (Sample.tagged "-a"); pure_transformer (Sample.tagged "-b")]
       None None None)
    (Sample.clip "bag")
  = inr (Sample.tagged "-b" (Sample.tagged "-a" (Sample.clip "bag"))).
Proof.
  apply (proj1 (transform_composes
    (Experiment_init "baseline" Sample.storage
       [pure_transformer (Sample.tagged "-a"); pure_transformer (Sample.tagged "-b")]
       None None None)
    (Sample.clip "bag")) [Sample.tagged "-a"; Sample.tagged "-b"]).
  reflexivity.
Defined.

(** ** The reserved slots *)

(** C9: two experiments that differ at most in [_noise] and [_inject]
    cannot be told apart through [identifier], [_get_runtime],
    [transform], [results] or [log].  No code of the class reads the two
    fields; [results] hands the experiment itself to the storage
    backend, and there the statement rests on the backend telling
    experiments apart by their identifier only. *)
Theorem noise_and_inject_are_inert `{ResultsBackend} (e1 e2 : Experiment) :
  keyed_by_identifier →
  _identifier e1 = _identifier e2 →
  _storage e1 = _storage e2 →
  _transformers e1 = _transformers e2 →
  _realtime e1 = _realtime e2 →
  identifier e1 = identifier e2 ∧
  (∀ tracker sequence w,
     _get_runtime e1 tracker sequence w = _get_runtime e2 tracker sequence w) ∧
  (∀ sequence, transform e1 sequence = transform e2 sequence) ∧
  (∀ tracker sequence, results e1 tracker sequence = results e2 tracker sequence) ∧
  (∀ name, log e1 name = log e2 name).
Proof.
  intros Hkeyed Hid Hst Htr Hrt.
  split; [done|]. split; [|split; [|split]].
  - intros tracker sequence w. unfold _get_runtime. by rewrite Hrt.
  - intros sequence. unfold transform. by rewrite Htr.
  - intros tracker sequence. unfold results. rewrite Hst. by apply Hkeyed.
  - intros name. unfold log. by rewrite Hst.
Qed.

Lemma noise_and_inject_are_inert_witness :
  let e1 := Experiment_init "baseline" Sample.storage [Sample.broken]
              (Some {[ "fps" := PyInt 30 ]}) None None in
  let e2 := Experiment_init "baseline" Sample.storage [Sample.broken]
              (Some {[ "fps" := PyInt 30 ]})
              (Some {[ "sigma" := PyInt 2 ]}) (Some {[ "rate" := PyInt 5 ]}) in
  _noise e1 ≠ _noise e2 ∧ _inject e1 ≠ _inject e2 ∧
  identifier e1 = identifier e2 ∧
  (∀ tracker sequence w,
     _get_runtime e1 tracker sequence w = _get_runtime e2 tracker sequence w) ∧
  (∀ sequence, transform e1 sequence = transform e2 sequence) ∧
  (∀ tracker sequence,
     @results Sample.filing e1 tracker sequence
     = @results Sample.filing e2 tracker sequence) ∧
  (∀ name, log e1 name = log e2 name).
Proof.
  intros e1 e2.
  split; [discriminate|]. split; [discriminate|].
  apply (@noise_and_inject_are_inert Sample.filing e1 e2).
  - intros storage tracker x1 x2 sequence Hid. simpl. by rewrite Hid.
  - reflexivity.
  - reflexivity.
  - reflexivity.
  - reflexivity.
Defined.

(** ** The run loop *)

Section RunLoopProperties.
Context {Ext : Type} `{Protocol Ext}.
Implicit Types (st : LoopState Ext) (x : Ext).

Lemma handle_unfold experiment persist te st :
  handle experiment persist te st
  = (if persist then inr () else inl (TrackerExc te), logged experiment te st).
Proof.
  unfold logged, handle, mbind, Eff_bind, modify, raise, mret, Eff_ret.
  destruct (te_log te), persist; reflexivity.
Qed.

(** One iteration, case by case. *)
Lemma run_sequence_unfold experiment tracker force persist sequence st :
  run_sequence experiment tracker force persist sequence st =
  match transform experiment sequence with
  | inl err => (inl err, record_call (CallTransform sequence) st)
  | inr sequence' =>
      let '(execution, x) := execute experiment tracker sequence' force (ext st) in
      let st' := executed sequence sequence' force execution x st in
      match raised execution with
      | None => (inr (), with_progress push st')
      | Some (TrackerExc te) =>
          if persist
          then (inr (), with_progress push (logged experiment te st'))
          else (inl (TrackerExc te), logged experiment te st')
      | Some err => (inl err, st')
      end
  end.
Proof.
  unfold run_sequence, mbind, Eff_bind, lift, call_execute. simpl.
  destruct (transform experiment sequence) as [err|sequence']; [done|].
  simpl. destruct (execute experiment tracker sequence' force (ext st))
    as [execution x] eqn:Hex.
  unfold executed. simpl.
  destruct (raised execution) as [[msg| |te|kind|]|]; try reflexivity.
  rewrite handle_unfold. by destruct persist.
Qed.

Lemma run_loop_cons experiment tracker force persist sequence rest st :
  run_loop experiment tracker force persist (sequence :: rest) st =
  match run_sequence experiment tracker force persist sequence st with
  | (inr _, st') => run_loop experiment tracker force persist rest st'
  | (inl err, st') => (inl err, st')
  end.
Proof.
  simpl. unfold mbind, Eff_bind.
  by destruct (run_sequence experiment tracker force persist sequence st)
    as [[err|[]] st'].
Qed.

Lemma run_loop_app experiment tracker force persist pre post st :
  run_loop experiment tracker force persist (pre ++ post) st =
  match run_loop experiment tracker force persist pre st with
  | (inr _, st') => run_loop experiment tracker force persist post st'
  | (inl err, st') => (inl err, st')
  end.
Proof.
  revert st. induction pre as [|sequence pre IH]; intros st; [done|].
  rewrite <- app_comm_cons, !run_loop_cons.
  destruct (run_sequence experiment tracker force persist sequence st)
    as [[err|[]] st']; [done|apply IH].
Qed.

(** *** What the steps do to the fields of the state *)

Lemma callbacks_finished (p : EvaluationProgress) (ps : list Q) :
  _finished (foldl EvaluationProgress_call p ps) = _finished p.
Proof.
  revert p. induction ps as [|q ps IH]; intros p; [done|].
  simpl. by rewrite IH.
Qed.

Lemma callbacks_updates (p : EvaluationProgress) (ps : list Q) :
  updates (bar (foldl EvaluationProgress_call p ps))
  = updates (bar p) ++ map (reported (_finished p)) ps.
Proof.
  revert p. induction ps as [|q ps IH]; intros p; simpl.
  - by rewrite app_nil_r.
  - rewrite IH. simpl. by rewrite <- app_assoc.
Qed.

Lemma executed_calls sequence sequence' force execution x st :
  calls (executed sequence sequence' force execution x st)
  = calls st ++ [CallTransform sequence; CallExecute sequence' force].
Proof. simpl. by rewrite <- app_assoc. Qed.

Lemma executed_finished sequence sequence' force execution x st :
  _finished (progress (executed sequence sequence' force execution x st))
  = _finished (progress st).
Proof. simpl. apply callbacks_finished. Qed.

Lemma executed_updates sequence sequence' force execution x st :
  updates (bar (progress (executed sequence sequence' force execution x st)))
  = updates (bar (progress st))
    ++ map (reported (_finished (progress st))) (reports execution).
Proof. simpl. apply callbacks_updates. Qed.

Lemma logged_progress experiment te st :
  progress (logged experiment te st) = progress st.
Proof.
  unfold logged, handle, mbind, Eff_bind, modify, mret, Eff_ret.
  by destruct (te_log te).
Qed.

Lemma logged_calls experiment te st :
  calls (logged experiment te st) = calls st.
Proof.
  unfold logged, handle, mbind, Eff_bind, modify, mret, Eff_ret.
  by destruct (te_log te).
Qed.

Lemma logged_ext experiment te st :
  ext (logged experiment te st) = ext st.
Proof.
  unfold logged, handle, mbind, Eff_bind, modify, mret, Eff_ret.
  by destruct (te_log te).
Qed.

Lemma pushed_synced st : synced (with_progress push st).
Proof. reflexivity. Qed.

(** *** Batches that run to their end *)

(** A batch whose transformers succeed and whose [execute] calls all
    have an outcome the loop goes on from runs to its end and makes
    exactly the calls of [attempts]. *)
Lemma run_loop_completes (allowed : option exn → bool) experiment tracker
    force persist sequences transformed st x1 :
  (∀ o, allowed o = true →
        o = None ∨ (persist = true ∧ ∃ te, o = Some (TrackerExc te))) →
  Forall2 (λ s s', transform experiment s = inr s') sequences transformed →
  execute_each allowed experiment tracker force transformed (ext st) = Some x1 →
  ∃ st1,
    run_loop experiment tracker force persist sequences st = (inr (), st1)
    ∧ calls st1 = calls st ++ attempts sequences transformed force
    ∧ ext st1 = x1
    ∧ _finished (progress st1)
      = (_finished (progress st) + Z.of_nat (length sequences))%Z
    ∧ (synced st → synced st1).
Proof.
  intros Hallowed Htransform. revert st.
  induction Htransform as [|s s' rest rest' Hs _ IH]; intros st Heach.
  - exists st. simpl in *. rewrite app_nil_r, Z.add_0_r.
    by repeat split; [congruence|..].
  - rewrite run_loop_cons, run_sequence_unfold, Hs.
    simpl in Heach.
    destruct (execute experiment tracker s' force (ext st))
      as [execution x] eqn:Hex.
    destruct (allowed (raised execution)) eqn:Ho; [|done].
    destruct (Hallowed _ Ho) as [Hr|[-> [te Hr]]]; rewrite Hr;
      cbv beta zeta iota;
      [set (st2 := with_progress push (executed s s' force execution x st))
      |set (st2 := with_progress push
                     (logged experiment te (executed s s' force execution x st)))];
      (assert (calls st2 = calls st ++ [CallTransform s; CallExecute s' force]
               ∧ ext st2 = x
               ∧ _finished (progress st2) = (_finished (progress st) + 1)%Z)
         as (Hc & Hx & Hf)
         by (subst st2; unfold with_progress; cbn [calls ext progress push _finished];
             rewrite ?logged_calls, ?logged_ext, ?logged_progress,
               executed_calls, executed_finished; done));
      (destruct (IH st2) as (st1 & Hrun & Hc1 & Hx1 & Hf1 & Hsy);
         [by rewrite Hx|]);
      exists st1; rewrite Hc1, Hc, Hf1, Hf, <- app_assoc; simpl length;
      (repeat split; [done|done|lia|]);
      intros _; apply Hsy; subst st2; apply pushed_synced.
Qed.

Lemma attempts_snoc (P : Sequence → Sequence → Prop) sequences transformed
    sequence sequence' force :
  Forall2 P sequences transformed →
  attempts (sequences ++ [sequence]) (transformed ++ [sequence']) force
  = attempts sequences transformed force
    ++ [CallTransform sequence; CallExecute sequence' force].
Proof.
  induction 1 as [|s s' rest rest' _ _ IH]; [done|].
  simpl. by rewrite IH.
Qed.

Lemma returned_allowed persist (o : option exn) :
  returned o = true →
  o = None ∨ (persist = true ∧ ∃ te, o = Some (TrackerExc te)).
Proof. destruct o; [done|by left]. Qed.

Lemma tracker_failure_allowed (o : option exn) :
  returned_or_tracker_failure o = true →
  o = None ∨ (true = true ∧ ∃ te, o = Some (TrackerExc te)).
Proof.
  destruct o as [[msg| |te|kind|]|]; try done; [right|left]; eauto.
Qed.

(** C1: with [persist=false], when the first [k-1] sequences are
    transformed and executed without an exception and [execute] raises
    the tracker failure [te] on sequence [k], the loop raises [te]
    itself, the calls made are the transform and execute of sequences
    [1..k] in order and nothing else, and [k-1] sequences count as
    finished. *)
Theorem run_experiment_aborts_at_first_failure experiment tracker force
    pre sequence post pre' sequence' x x1 x2 execution te :
  Forall2 (λ s s', transform experiment s = inr s') pre pre' →
  transform experiment sequence = inr sequence' →
  execute_each returned experiment tracker force pre' x = Some x1 →
  execute experiment tracker sequence' force x1 = (execution, x2) →
  raised execution = Some (TrackerExc te) →
  ∃ st,
    run_experiment experiment tracker (pre ++ sequence :: post) force false x
      = (inl (TrackerExc te), st)
    ∧ calls st = attempts (pre ++ [sequence]) (pre' ++ [sequence']) force
    ∧ ext st = x2
    ∧ _finished (progress st) = Z.of_nat (length pre).
Proof.
  intros Hpre Hs Hquiet Hex Hraised. unfold run_experiment.
  set (st0 := initial_state experiment tracker (pre ++ sequence :: post) x).
  destruct (run_loop_completes returned experiment tracker force false
              pre pre' st0 x1 (returned_allowed false) Hpre Hquiet)
    as (st1 & Hrun & Hc & Hx & Hf & _).
  rewrite run_loop_app, Hrun, run_loop_cons, run_sequence_unfold, Hs, Hx, Hex.
  cbv beta zeta iota. rewrite Hraised.
  eexists. split; [done|].
  rewrite logged_calls, logged_ext, logged_progress,
    executed_calls, executed_finished, Hc, Hf.
  by rewrite (attempts_snoc _ _ _ _ _ _ Hpre).
Qed.

(** C2: with [persist=true], when the transformers succeed and every
    [execute] call returns or raises a tracker failure, the loop
    returns normally, the calls made are the transform and execute of
    every sequence, once each and in batch order, all [N] sequences
    count as finished and the bar stands at [N]. *)
Theorem run_experiment_persists experiment tracker force
    sequences transformed x x1 :
  Forall2 (λ s s', transform experiment s = inr s') sequences transformed →
  execute_each returned_or_tracker_failure experiment tracker force
    transformed x = Some x1 →
  ∃ st,
    run_experiment experiment tracker sequences force true x = (inr (), st)
    ∧ calls st = attempts sequences transformed force
    ∧ ext st = x1
    ∧ _finished (progress st) = Z.of_nat (length sequences)
    ∧ position (bar (progress st)) = inject_Z (Z.of_nat (length sequences)).
Proof.
  intros Htransform Heach. unfold run_experiment.
  set (st0 := initial_state experiment tracker sequences x).
  destruct (run_loop_completes returned_or_tracker_failure experiment tracker
              force true sequences transformed st0 x1
              tracker_failure_allowed Htransform Heach)
    as (st & Hrun & Hc & Hx & Hf & Hsync).
  change (_finished (progress st0)) with 0%Z in Hf. rewrite Z.add_0_l in Hf.
  exists st. split; [done|]. split; [done|]. split; [done|]. split; [done|].
  rewrite <- Hf. by apply Hsync.
Qed.

(** *** Batches in general *)

Lemma run_loop_returned experiment tracker force persist sequences st st1 :
  run_loop experiment tracker force persist sequences st = (inr (), st1) →
  _finished (progress st1)
    = (_finished (progress st) + Z.of_nat (length sequences))%Z
  ∧ (synced st → synced st1).
Proof.
  revert st. induction sequences as [|s rest IH]; intros st.
  - intros [= <-]. simpl. by rewrite Z.add_0_r.
  - rewrite run_loop_cons, run_sequence_unfold.
    destruct (transform experiment s) as [err|s']; [done|].
    destruct (execute experiment tracker s' force (ext st)) as [execution x].
    cbv beta zeta iota.
    destruct (raised execution) as [[msg| |te|kind|]|]; try done;
      [destruct persist; [|done]|];
      intros [Hf Hsync]%IH; revert Hf;
      unfold with_progress; cbn [progress push _finished];
      rewrite ?logged_progress, executed_finished; intros ->;
      (split; [simpl length; lia|intros _; apply Hsync, pushed_synced]).
Qed.

Lemma run_sequence_shown experiment tracker force persist sequence sequence'
    execution x st :
  transform experiment sequence = inr sequence' →
  execute experiment tracker sequence' force (ext st) = (execution, x) →
  (shown st ++ map (reported (_finished (progress st))) (reports execution))
    `prefix_of`
  shown (snd (run_sequence experiment tracker force persist sequence st)).
Proof.
  intros Hs Hex. unfold shown.
rewrite run_sequence_unfold, Hs, Hex. cbv beta zeta iota.
  destruct (raised execution) as [[msg| |te|kind|]|]; try destruct persist;
    unfold with_progress; cbn [snd progress push bar updates update_absolute];
    rewrite ?logged_progress, executed_updates;
    try reflexivity; by apply prefix_app_r.
Qed.

Lemma run_sequence_monotone experiment tracker force persist sequence st :
  shown st `prefix_of`
  shown (snd (run_sequence experiment tracker force persist sequence st)).
Proof.
  destruct (transform experiment sequence) as [err|sequence'] eqn:Hs.
  - by rewrite run_sequence_unfold, Hs.
  - destruct (execute experiment tracker sequence' force (ext st))
      as [execution x] eqn:Hex.
    etrans; [|by eapply run_sequence_shown].
    by apply prefix_app_r.
Qed.

Lemma run_loop_monotone experiment tracker force persist sequences st :
  shown st `prefix_of`
  shown (snd (run_loop experiment tracker force persist sequences st)).
Proof.
  revert st. induction sequences as [|s rest IH]; intros st; [done|].
  rewrite run_loop_cons.
  pose proof (run_sequence_monotone experiment tracker force persist s st) as Hs.
  destruct (run_sequence experiment tracker force persist s st)
    as [[err|[]] st']; [done|].
  etrans; [apply Hs|apply IH].
Qed.

Lemma py_max_cases (a b : Q) :
  (b <= a ∧ py_max a b = a)%Q ∨ (a < b ∧ py_max a b = b)%Q.
Proof.
  unfold py_max. destruct (Qle_bool b a) eqn:E.
  - left. by apply Qle_bool_iff in E.
  - right. split; [|done]. apply Qnot_le_lt.
    by rewrite <- Qle_bool_iff, E.
Qed.

Lemma py_min_cases (a b : Q) :
  (a <= b ∧ py_min a b = a)%Q ∨ (b < a ∧ py_min a b = b)%Q.
Proof.
  unfold py_min. destruct (Qle_bool a b) eqn:E.
  - left. by apply Qle_bool_iff in E.
  - right. split; [|done]. apply Qnot_le_lt.
    by rewrite <- Qle_bool_iff, E.
Qed.

Lemma reported_clamped (j : Z) (p : Q) :
  (reported j p == clamp (inject_Z j + p) (inject_Z j) (inject_Z j + 1))%Q
  ∧ (inject_Z j <= reported j p <= inject_Z j + 1)%Q.
Proof.
  unfold reported, clamp.
  pose proof (Q.max_spec (inject_Z j) (Qmin (inject_Z j + 1) (inject_Z j + p)))
    as Hmax.
  pose proof (Q.min_spec (inject_Z j + 1) (inject_Z j + p)) as Hmin.
  destruct (py_max_cases 0 p) as [[H0 ->]|[H0 ->]];
    [destruct (py_min_cases 1 0) as [[H1 ->]|[H1 ->]]
    |destruct (py_min_cases 1 p) as [[H1 ->]|[H1 ->]]];
    lra.
Qed.

(** C5: once the loop has pushed [j] sequences, [j] sequences count as
    finished and the bar stands at [j]; every value [p] that [execute]
    reports for the next sequence reaches the bar as
    [j + min(1, max(0, p))], which is [clamp (j + p) j (j + 1)] and so
    lies between [j] and [j + 1]. *)
Theorem progress_is_finished_plus_clamped experiment tracker force persist
    pre sequence post sequence' x st1 execution x2 :
  run_loop experiment tracker force persist pre
    (initial_state experiment tracker (pre ++ sequence :: post) x)
    = (inr (), st1) →
  transform experiment sequence = inr sequence' →
  execute experiment tracker sequence' force (ext st1) = (execution, x2) →
  let j := Z.of_nat (length pre) in
  _finished (progress st1) = j
  ∧ position (bar (progress st1)) = inject_Z j
  ∧ (shown st1 ++ map (reported j) (reports execution))
      `prefix_of`
    shown (snd (run_experiment experiment tracker (pre ++ sequence :: post)
                  force persist x))
  ∧ ∀ p, (reported j p == clamp (inject_Z j + p) (inject_Z j) (inject_Z j + 1))%Q
         ∧ (inject_Z j <= reported j p <= inject_Z j + 1)%Q.
Proof.
  intros Hpre Hs Hex j.
  destruct (run_loop_returned _ _ _ _ _ _ _ Hpre) as [Hf Hsync].
  change (_finished (progress st1) = j) in Hf.
  split; [done|]. split; [rewrite <- Hf; by apply Hsync|].
  split; [|apply reported_clamped].
  unfold run_experiment. rewrite run_loop_app, Hpre, run_loop_cons.
  pose proof (run_sequence_shown experiment tracker force persist
                sequence sequence' execution x2 st1 Hs Hex) as Hshown.
  rewrite Hf in Hshown.
  destruct (run_sequence experiment tracker force persist sequence st1)
    as [[err|[]] st']; [done|].
  etrans; [apply Hshown|apply run_loop_monotone].
Qed.

(** C8: whatever [persist] is, when the loop has come to a sequence
    whose [transform] raises, or whose [execute] raises something other
    than a [TrackerException], [run_experiment] ends with that very
    exception: nothing is logged or written for it, the sequence is
    not counted as finished and no later sequence is touched. *)
Theorem run_experiment_propagates_other_errors experiment tracker force
    persist pre sequence post x st1 err :
  run_loop experiment tracker force persist pre
    (initial_state experiment tracker (pre ++ sequence :: post) x)
    = (inr (), st1) →
  fatal_error experiment tracker force sequence (ext st1) = Some err →
  ∃ st,
    run_experiment experiment tracker (pre ++ sequence :: post) force persist x
      = (inl err, st)
    ∧ calls st = calls st1 ++ attempt experiment force sequence
    ∧ logger st = logger st1
    ∧ logfiles st = logfiles st1
    ∧ _finished (progress st) = _finished (progress st1).
Proof.
  intros Hpre Hfatal. unfold run_experiment.
  rewrite run_loop_app, Hpre, run_loop_cons, run_sequence_unfold.
  unfold fatal_error, attempt in *.
  destruct (transform experiment sequence) as [err'|sequence'].
  - injection Hfatal as ->. by eexists.
  - destruct (execute experiment tracker sequence' force (ext st1))
      as [execution x2].
    cbv beta zeta iota. simpl in Hfatal.
    destruct (raised execution) as [[msg| |te|kind|]|]; try done;
      injection Hfatal as <-; eexists; (split; [done|]);
      by rewrite executed_calls, executed_finished.
Qed.

End RunLoopProperties.

Lemma run_experiment_aborts_at_first_failure_witness :
  ∃ st,
    @run_experiment nat Sample.counting (Sample.baseline None) Sample.tracker
      ([Sample.clip "a"] ++ Sample.clip "bad" :: [Sample.clip "c"]) true false 0%nat
      = (inl (TrackerExc Sample.crash), st)
    ∧ calls st = attempts ([Sample.clip "a"] ++ [Sample.clip "bad"])
                   ([Sample.clip "a"] ++ [Sample.clip "bad"]) true
    ∧ ext st = 2%nat
    ∧ _finished (progress st) = Z.of_nat (length [Sample.clip "a"]).
Proof.
  apply (@run_experiment_aborts_at_first_failure nat Sample.counting
           (Sample.baseline None) Sample.tracker true
           [Sample.clip "a"] (Sample.clip "bad") [Sample.clip "c"]
           [Sample.clip "a"] (Sample.clip "bad") 0%nat 1%nat 2%nat
           {| reports := [(1 # 2)%Q; (3 # 2)%Q; (-1 # 1)%Q];
              raised := Some (TrackerExc Sample.crash) |}
           Sample.crash).
  - repeat constructor.
  - reflexivity.
  - reflexivity.
  - reflexivity.
  - reflexivity.
Defined.

Lemma run_experiment_persists_witness :
  ∃ st,
    @run_experiment nat Sample.counting (Sample.baseline None) Sample.tracker
      [Sample.clip "a"; Sample.clip "bad"; Sample.clip "c"] false true 0%nat
      = (inr (), st)
    ∧ calls st = attempts [Sample.clip "a"; Sample.clip "bad"; Sample.clip "c"]
                   [Sample.clip "a"; Sample.clip "bad"; Sample.clip "c"] false
    ∧ ext st = 3%nat
    ∧ _finished (progress st) = 3%Z
    ∧ position (bar (progress st)) = 3%Q.
Proof.
  apply (@run_experiment_persists nat Sample.counting
           (Sample.baseline None) Sample.tracker false
           [Sample.clip "a"; Sample.clip "bad"; Sample.clip "c"]
           [Sample.clip "a"; Sample.clip "bad"; Sample.clip "c"]
           0%nat 3%nat).
  - repeat constructor.
  - reflexivity.
Defined.

Lemma progress_is_finished_plus_clamped_witness :
  let st1 :=
    snd (@run_loop nat Sample.counting (Sample.baseline None) Sample.tracker
           false true [Sample.clip "a"; Sample.clip "bad"]
           (initial_state (Sample.baseline None) Sample.tracker
              ([Sample.clip "a"; Sample.clip "bad"] ++ Sample.clip "c" :: [])
              0%nat)) in
  let j := Z.of_nat (length [Sample.clip "a"; Sample.clip "bad"]) in
  _finished (progress st1) = j
  ∧ position (bar (progress st1)) = inject_Z j
  ∧ (shown st1 ++ map (reported j) [(1 # 2)%Q; (3 # 2)%Q; (-1 # 1)%Q])
      `prefix_of`
    shown (snd
      (@run_experiment nat Sample.counting (Sample.baseline None) Sample.tracker
         ([Sample.clip "a"; Sample.clip "bad"] ++ Sample.clip "c" :: [])
         false true 0%nat))
  ∧ ∀ p, (reported j p == clamp (inject_Z j + p) (inject_Z j) (inject_Z j + 1))%Q
         ∧ (inject_Z j <= reported j p <= inject_Z j + 1)%Q.
Proof.
  intros st1.
  apply (@progress_is_finished_plus_clamped nat Sample.counting
           (Sample.baseline None) Sample.tracker false true
           [Sample.clip "a"; Sample.clip "bad"] (Sample.clip "c") []
           (Sample.clip "c") 0%nat st1
           {| reports := [(1 # 2)%Q; (3 # 2)%Q; (-1 # 1)%Q]; raised := None |}
           3%nat).
  - reflexivity.
  - reflexivity.
  - reflexivity.
Defined.

Lemma run_experiment_propagates_other_errors_witness :
  let st1 :=
    snd (@run_loop nat Sample.counting (Sample.baseline None) Sample.tracker
           false true [Sample.clip "bad"]
           (initial_state (Sample.baseline None) Sample.tracker
              ([Sample.clip "bad"] ++ Sample.clip "ugly" :: [Sample.clip "c"])
              0%nat)) in
  ∃ st,
    @run_experiment nat Sample.counting (Sample.baseline None) Sample.tracker
      ([Sample.clip "bad"] ++ Sample.clip "ugly" :: [Sample.clip "c"])
      false true 0%nat
      = (inl (OtherError "KeyError"), st)
    ∧ calls st = calls st1 ++ attempt (Sample.baseline None) false (Sample.clip "ugly")
    ∧ logger st = logger st1
    ∧ logfiles st = logfiles st1
    ∧ _finished (progress st) = _finished (progress st1).
Proof.
  intros st1.
  apply (@run_experiment_propagates_other_errors nat Sample.counting
           (Sample.baseline None) Sample.tracker false true
           [Sample.clip "bad"] (Sample.clip "ugly") [Sample.clip "c"]
           0%nat st1 (OtherError "KeyError")).
  - reflexivity.
  - reflexivity.
Defined.

(** * Further properties *)

(** ** The realtime decision, continued *)

(** X1: keys missing from the realtime configuration take their
    defaults.  With neither "grace" nor "fps" in the dictionary the
    wrapper gets grace 0, and its interval is [1 / 20] on a sequence
    without fps metadata and the float [1 / float(sf)] on one that
    declares an fps [sf] that [float] accepts and that is not zero. *)
Theorem get_runtime_defaults (self : Experiment) (tracker : Tracker)
    (sequence : Sequence) (realtime : gmap string number) (w : World) :
  _realtime self = Some realtime →
  realtime !! "grace" = None →
  realtime !! "fps" = None →
  let wrapped interval :=
    (inr (RealtimeTrackerRuntime
            (TrackerRuntime (tracker_identifier tracker) (length (spawned w)))
            (PyInt 0) interval),
     {| spawned := spawned w ++ [tracker_identifier tracker] |}) in
  (sequence_metadata sequence !! "fps" = None →
   _get_runtime self tracker sequence w = wrapped (1 / 20)%Q) ∧
  (∀ sf d, sequence_metadata sequence !! "fps" = Some sf →
           py_float sf = inr d →
           ¬ (d == 0)%Q →
           _get_runtime self tracker sequence w = wrapped (float_inverse d)).
Proof.
  intros Hrt Hg Hf wrapped. unfold _get_runtime. rewrite Hrt.
  unfold dict_get, metadata, dict_get. rewrite Hg, Hf. simpl.
  unfold mbind, Eff_bind, lift.
  rewrite (to_number_accepts (PyInt 0) (PyInt 0) int_conversion (PyInt 0))
    by done.
  rewrite (to_number_accepts (PyInt 20) (PyInt 0) float_conversion (PyFloat 20))
    by done.
  split.
  - by intros ->.
  - intros sf d -> Hd Hnz. simpl. rewrite Hd. by rewrite py_inverse_defined.
Qed.

Lemma get_runtime_defaults_witness :
  _get_runtime (Sample.baseline (Some ∅)) Sample.tracker (Sample.clip "bag")
    Sample.world
  = (inr (RealtimeTrackerRuntime (TrackerRuntime "ncc" 0) (PyInt 0) (1 / 20)%Q),
     {| spawned := ["ncc"] |}).
Proof.
  refine (proj1 (get_runtime_defaults (Sample.baseline (Some ∅)) Sample.tracker
                   (Sample.clip "bag") ∅ Sample.world _ _ _) _);
    reflexivity.
Defined.

(** X2: a grace whose integer value is negative, or an fps that [float]
    turns into a negative number, ends [_get_runtime] in a configuration
    error with the world untouched, also when the sequence declares its
    own fps and the configured one would not be used. *)
Theorem get_runtime_negative_rejected (self : Experiment) (tracker : Tracker)
    (sequence : Sequence) (realtime : gmap string number) (w : World) :
  _realtime self = Some realtime →
  (py_int (dict_get realtime "grace" (PyInt 0)) < 0)%Z ∨
  (∃ d, py_float (dict_get realtime "fps" (PyInt 20)) = inr d ∧ (d < 0)%Q) →
  ∃ msg, _get_runtime self tracker sequence w = (inl (ConfigurationError msg), w).
Proof. apply get_runtime_rejects_negative. Qed.

Lemma get_runtime_negative_rejected_witness :
  ∃ msg,
    _get_runtime (Sample.baseline (Some {[ "fps" := PyFloat (-5 # 2) ]}))
      Sample.tracker (Sample.clip_at "bag" (PyInt 30)) Sample.world
    = (inl (ConfigurationError msg), Sample.world).
Proof.
  apply (get_runtime_negative_rejected
           (Sample.baseline (Some {[ "fps" := PyFloat (-5 # 2) ]}))
           Sample.tracker (Sample.clip_at "bag" (PyInt 30))
           {[ "fps" := PyFloat (-5 # 2) ]} Sample.world).
  - reflexivity.
  - right. exists (-5 # 2)%Q. split; reflexivity.
Defined.

(** X3: [_get_runtime] asks the tracker for a runtime exactly once when
    it returns and not at all when it raises; what it raises is a
    configuration error, the [OverflowError] of [float] or a division by
    zero. *)
Theorem get_runtime_spawns_once (self : Experiment) (tracker : Tracker)
    (sequence : Sequence) (w : World) :
  match _get_runtime self tracker sequence w with
  | (inr _, w') => spawned w' = spawned w ++ [tracker_identifier tracker]
  | (inl e, w') =>
      w' = w ∧ (is_configuration_error e = true ∨ e = OverflowError
                ∨ e = ZeroDivisionError)
  end.
Proof.
  assert (∀ v e, py_float v = inl e → e = OverflowError) as Hfloat.
  { intros [z|q] e; simpl; [|done].
    destruct (_ <=? _)%Z; congruence. }
  unfold _get_runtime. destruct (_realtime self) as [realtime|]; [|done].
  unfold mbind, Eff_bind, lift, to_number, int_conversion, float_conversion,
    py_inverse.
  destruct (num_ltb _ _); [by auto|].
  destruct (py_float (dict_get realtime "fps" (PyInt 20))) as [e|q] eqn:Hq.
  { apply Hfloat in Hq as ->. split; [reflexivity|right; left; reflexivity]. }
  destruct (num_ltb _ _); [by auto|].
  destruct (py_float (metadata sequence "fps" (PyFloat q)))
    as [e|rate] eqn:Hrate.
  { apply Hfloat in Hrate as ->. split; [reflexivity|right; left; reflexivity]. }
  destruct (Qeq_bool _ _); [by auto|done].
Qed.

(** ** The transform pipeline, continued *)

Lemma apply_transformers_app (ts1 ts2 : list Transformer) (sequence : Sequence) :
  apply_transformers (ts1 ++ ts2) sequence =
  match apply_transformers ts1 sequence with
  | inr sequence' => apply_transformers ts2 sequence'
  | inl e => inl e
  end.
Proof.
  revert sequence. induction ts1 as [|t ts1 IH]; intros sequence; [done|].
  simpl. by destruct (t sequence).
Qed.

(** X4: transforming with the transformers of one experiment followed by
    those of another is transforming with the first and, if that
    returns, transforming the result with the second. *)
Theorem transform_app (e1 e2 e12 : Experiment) (sequence : Sequence) :
  _transformers e12 = _transformers e1 ++ _transformers e2 →
  transform e12 sequence =
  match transform e1 sequence with
  | inr sequence' => transform e2 sequence'
  | inl e => inl e
  end.
Proof. unfold transform. intros ->. apply apply_transformers_app. Qed.

Lemma transform_app_witness :
  transform
    (Experiment_init "baseline" Sample.storage
       ([pure_transformer (Sample.tagged "-a")] ++ [Sample.broken])
       None None None)
    (Sample.clip "bag")
  = match transform
            (Experiment_init "first" Sample.storage
               [pure_transformer (Sample.tagged "-a")] None None None)
            (Sample.clip "bag") with
    | inr sequence' =>
        transform
          (Experiment_init "second" Sample.storage [Sample.broken] None None None)
          sequence'
    | inl e => inl e
    end.
Proof.
  apply (transform_app
    (Experiment_init "first" Sample.storage
       [pure_transformer (Sample.tagged "-a")] None None None)
    (Experiment_init "second" Sample.storage [Sample.broken] None None None)).
  reflexivity.
Defined.

(** X5: the first transformer that raises ends [transform] with its
    exception, whatever transformers follow it. *)
Theorem transform_stops_at_failure (self : Experiment)
    (fs : list (Sequence → Sequence)) (t : Transformer) (rest : list Transformer)
    (sequence : Sequence) (e : exn) :
  _transformers self = map pure_transformer fs ++ t :: rest →
  t (composed fs sequence) = inl e →
  transform self sequence = inl e.
Proof.
  unfold transform. intros -> Ht.
  rewrite apply_transformers_app, apply_transformers_pure. simpl. by rewrite Ht.
Qed.

Lemma transform_stops_at_failure_witness :
  transform
    (Experiment_init "baseline" Sample.storage
       (map pure_transformer [Sample.tagged "-a"]
          ++ Sample.broken :: [pure_transformer (Sample.tagged "-b")])
       None None None)
    (Sample.clip "bag")
  = inl (OtherError "KeyError").
Proof.
  apply (transform_stops_at_failure
    (Experiment_init "baseline" Sample.storage
       (map pure_transformer [Sample.tagged "-a"]
          ++ Sample.broken :: [pure_transformer (Sample.tagged "-b")])
       None None None)
    [Sample.tagged "-a"] Sample.broken [pure_transformer (Sample.tagged "-b")]).
  - reflexivity.
  - reflexivity.
Defined.

(** ** The run loop, continued *)

Section RunLoopFurther.
Context {Ext : Type} `{Protocol Ext}.
Implicit Types (st : LoopState Ext) (x : Ext).

Lemma run_loop_without_failure experiment tracker force sequences st st1 :
  run_loop experiment tracker force false sequences st = (inr (), st1) →
  run_loop experiment tracker force true sequences st = (inr (), st1).
Proof.
  revert st. induction sequences as [|s rest IH]; intros st; [done|].
  rewrite !run_loop_cons, !run_sequence_unfold.
  destruct (transform experiment s) as [err|s']; [done|].
  destruct (execute experiment tracker s' force (ext st)) as [execution x].
  cbv beta zeta iota.
  destruct (raised execution) as [[msg| |te|kind|]|]; try done. apply IH.
Qed.

(** X6: [persist] only matters once a tracker fails.  A batch that runs
    to its end with [persist=false] gives the same result and leaves the
    same state behind with [persist=true]. *)
Theorem run_experiment_persist_irrelevant experiment tracker sequences force
    x st :
  run_experiment experiment tracker sequences force false x = (inr (), st) →
  run_experiment experiment tracker sequences force true x = (inr (), st).
Proof. apply run_loop_without_failure. Qed.



End RunLoopFurther.

Lemma run_experiment_persist_irrelevant_witness :
  ∃ st,
    @run_experiment nat Sample.counting (Sample.baseline None) Sample.tracker
      [Sample.clip "a"; Sample.clip "b"] false true 0%nat = (inr (), st)
    ∧ ext st = 2%nat.
Proof.
  eexists. split.
  - apply (@run_experiment_persist_irrelevant nat Sample.counting
             (Sample.baseline None) Sample.tracker
             [Sample.clip "a"; Sample.clip "b"] false 0%nat).
    reflexivity.
  - reflexivity.
Defined.


(** ** What a tracker failure leaves behind *)

Section RunLoopLogs.
Context {Ext : Type} `{Protocol Ext}.
Implicit Types (st : LoopState Ext) (x : Ext).

Lemma logged_logfiles experiment te st :
  logfiles (logged experiment te st) = logfiles st ++ written experiment te.
Proof.
  unfold logged, handle, written, mbind, Eff_bind, modify, mret, Eff_ret.
  destruct (te_log te); simpl; [done|by rewrite app_nil_r].
Qed.

Lemma logged_logger experiment te st :
  logger (logged experiment te st) = logger st ++ records experiment te.
Proof.
  unfold logged, handle, records, mbind, Eff_bind, modify, mret, Eff_ret.
  destruct (te_log te); simpl; by rewrite <- !app_assoc.
Qed.

Lemma executed_logfiles sequence sequence' force execution x st :
  logfiles (executed sequence sequence' force execution x st) = logfiles st.
Proof. reflexivity. Qed.

Lemma executed_logger sequence sequence' force execution x st :
  logger (executed sequence sequence' force execution x st) = logger st.
Proof. reflexivity. Qed.

Lemma failures_quiet experiment tracker force sequences x x1 :
  execute_each returned experiment tracker force sequences x = Some x1 →
  failures experiment tracker force sequences x = [].
Proof.
  revert x. induction sequences as [|s rest IH]; intros x; [done|].
  simpl. destruct (execute experiment tracker s force x) as [execution x'].
  destruct (raised execution); [done|]. apply IH.
Qed.

Lemma run_loop_logs (allowed : option exn → bool) experiment tracker
    force persist sequences transformed st x1 :
  (∀ o, allowed o = true →
        o = None ∨ (persist = true ∧ ∃ te, o = Some (TrackerExc te))) →
  Forall2 (λ s s', transform experiment s = inr s') sequences transformed →
  execute_each allowed experiment tracker force transformed (ext st) = Some x1 →
  let st1 := snd (run_loop experiment tracker force persist sequences st) in
  logfiles st1
    = logfiles st
      ++ flat_map (written experiment)
           (failures experiment tracker force transformed (ext st))
  ∧ logger st1
    = logger st
      ++ flat_map (records experiment)
           (failures experiment tracker force transformed (ext st)).
Proof.
  intros Hallowed Htransform. revert st.
  induction Htransform as [|s s' rest rest' Hs _ IH]; intros st Heach.
  - simpl. by rewrite !app_nil_r.
  - rewrite run_loop_cons, run_sequence_unfold, Hs.
    simpl in Heach. cbn [failures].
    destruct (execute experiment tracker s' force (ext st))
      as [execution x] eqn:Hex.
    destruct (allowed (raised execution)) eqn:Ho; [|done].
    destruct (Hallowed _ Ho) as [Hr|[-> [te Hr]]]; rewrite Hr;
      cbv beta zeta iota;
      [specialize (IH (with_progress push (executed s s' force execution x st)))
      |specialize (IH (with_progress push
                         (logged experiment te
                            (executed s s' force execution x st))))];
      (destruct IH as [-> ->];
         [unfold with_progress; cbn [ext]; by rewrite ?logged_ext|]);
      unfold with_progress; cbn [logfiles logger ext flat_map];
      rewrite ?logged_logfiles, ?logged_logger, ?logged_ext, <- ?app_assoc;
      done.
Qed.

(** X10: with [persist=false] the failure that ends the batch is logged
    before it is raised again.  In the setting of an abort on sequence
    [k], the run leaves exactly the records of that failure on the
    logger, and exactly one log file, opened under the failing tracker's
    identifier and holding the captured output, when the failure carries
    output, and none when it does not. *)
Theorem run_experiment_abort_is_logged experiment tracker force
    pre sequence post pre' sequence' x x1 x2 execution te :
  Forall2 (λ s s', transform experiment s = inr s') pre pre' →
  transform experiment sequence = inr sequence' →
  execute_each returned experiment tracker force pre' x = Some x1 →
  execute experiment tracker sequence' force x1 = (execution, x2) →
  raised execution = Some (TrackerExc te) →
  let st := snd (run_experiment experiment tracker (pre ++ sequence :: post)
                   force false x) in
  logfiles st = written experiment te ∧ logger st = records experiment te.
Proof.
  intros Hpre Hs Hquiet Hex Hraised. unfold run_experiment.
  set (st0 := initial_state experiment tracker (pre ++ sequence :: post) x).
  destruct (run_loop_completes returned experiment tracker force false
              pre pre' st0 x1 (returned_allowed false) Hpre Hquiet)
    as (st1 & Hrun & _ & Hx & _).
  destruct (run_loop_logs returned experiment tracker force false
              pre pre' st0 x1 (returned_allowed false) Hpre Hquiet)
    as [Hfiles Hlogger].
  rewrite Hrun in Hfiles, Hlogger. simpl in Hfiles, Hlogger.
  rewrite (failures_quiet _ _ _ _ _ _ Hquiet) in Hfiles, Hlogger.
  simpl in Hfiles, Hlogger.
  rewrite run_loop_app, Hrun, run_loop_cons, run_sequence_unfold, Hs, Hx, Hex.
  cbv beta zeta iota. rewrite Hraised. cbn [snd].
  by rewrite logged_logfiles, logged_logger, executed_logfiles,
    executed_logger, Hfiles, Hlogger.
Qed.

(** X11: with [persist=true] every swallowed failure is logged.  The log
    files written are, in batch order, one per tracker failure that
    carries captured output, and the logger holds the records of every
    failure, in batch order. *)
Theorem run_experiment_persist_logs experiment tracker force
    sequences transformed x x1 :
  Forall2 (λ s s', transform experiment s = inr s') sequences transformed →
  execute_each returned_or_tracker_failure experiment tracker force
    transformed x = Some x1 →
  let st := snd (run_experiment experiment tracker sequences force true x) in
  logfiles st
    = flat_map (written experiment)
        (failures experiment tracker force transformed x)
  ∧ logger st
    = flat_map (records experiment)
        (failures experiment tracker force transformed x).
Proof.
  intros Htransform Heach.
  apply (run_loop_logs returned_or_tracker_failure experiment tracker force
           true sequences transformed
           (initial_state experiment tracker sequences x) x1
           tracker_failure_allowed Htransform Heach).
Qed.

End RunLoopLogs.

Lemma run_experiment_abort_is_logged_witness :
  let st :=
    snd (@run_experiment nat Sample.counting (Sample.baseline None)
           Sample.tracker
           ([Sample.clip "a"] ++ Sample.clip "bad" :: [Sample.clip "c"])
           true false 0%nat) in
  logfiles st = [({| log_storage := Sample.storage; log_name := "ncc" |},
                  "segfault")]
  ∧ logger st = records (Sample.baseline None) Sample.crash.
Proof.
  apply (@run_experiment_abort_is_logged nat Sample.counting
           (Sample.baseline None) Sample.tracker true
           [Sample.clip "a"] (Sample.clip "bad") [Sample.clip "c"]
           [Sample.clip "a"] (Sample.clip "bad") 0%nat 1%nat 2%nat
           {| reports := [(1 # 2)%Q; (3 # 2)%Q; (-1 # 1)%Q];
              raised := Some (TrackerExc Sample.crash) |}
           Sample.crash).
  - repeat constructor.
  - reflexivity.
  - reflexivity.
  - reflexivity.
  - reflexivity.
Defined.

Lemma run_experiment_persist_logs_witness :
  let st :=
    snd (@run_experiment nat Sample.counting (Sample.baseline None)
           Sample.tracker
           [Sample.clip "bad"; Sample.clip "a"; Sample.clip "bad"]
           false true 0%nat) in
  logfiles st = [({| log_storage := Sample.storage; log_name := "ncc" |},
                  "segfault");
                 ({| log_storage := Sample.storage; log_name := "ncc" |},
                  "segfault")]
  ∧ logger st = records (Sample.baseline None) Sample.crash
                ++ records (Sample.baseline None) Sample.crash.
Proof.
  apply (@run_experiment_persist_logs nat Sample.counting
           (Sample.baseline None) Sample.tracker false
           [Sample.clip "bad"; Sample.clip "a"; Sample.clip "bad"]
           [Sample.clip "bad"; Sample.clip "a"; Sample.clip "bad"]
           0%nat 3%nat).
  - repeat constructor.
  - reflexivity.
Defined.

(** ** The history of the bar *)

Section BarHistory.
Context {Ext : Type} `{Protocol Ext}.
Implicit Types (st : LoopState Ext) (x : Ext).

Lemma inject_Z_le (a b : Z) : (a ≤ b)%Z → (inject_Z a <= inject_Z b)%Q.
Proof. intros Hab. by rewrite <- Zle_Qle. Qed.

Lemma reported_between (j : Z) (p : Q) :
  (inject_Z j <= reported j p <= inject_Z (j + 1))%Q.
Proof. rewrite inject_Z_plus. apply reported_clamped. Qed.

Lemma reported_monotone (j : Z) (p q : Q) :
  (p <= q)%Q → (reported j p <= reported j q)%Q.
Proof.
  intros Hpq. unfold reported.
  pose proof (py_min_cases 1 (py_max 0 p)) as Ha.
  pose proof (py_min_cases 1 (py_max 0 q)) as Hb.
  revert Ha Hb. generalize (py_min 1 (py_max 0 p)) (py_min 1 (py_max 0 q)).
  pose proof (py_max_cases 0 p) as Hp. pose proof (py_max_cases 0 q) as Hq.
  revert Hp Hq. generalize (py_max 0 p) (py_max 0 q).
  intros a b [[Hp ->]|[Hp ->]] [[Hq ->]|[Hq ->]]
    ma mb [[Ha ->]|[Ha ->]] [[Hb ->]|[Hb ->]]; lra.
Qed.

Lemma reported_sorted (j : Z) (ps : list Q) :
  StronglySorted Qle ps → StronglySorted Qle (map (reported j) ps).
Proof.
  induction 1 as [|p ps _ IH Hall]; simpl; constructor; [done|].
  apply List.Forall_map. eapply Forall_impl; [apply Hall|].
  intros q Hq. by apply reported_monotone.
Qed.

(** What one iteration adds to the history. *)
Lemma run_sequence_history experiment tracker force persist sequence st :
  let r := run_sequence experiment tracker force persist sequence st in
  let f := _finished (progress st) in
  ∃ extra,
    shown (snd r) = shown st ++ extra
    ∧ Forall (λ v, inject_Z f <= v <= inject_Z (f + 1))%Q extra
    ∧ (monotone_reports experiment tracker force → StronglySorted Qle extra)
    ∧ (fst r = inr () → _finished (progress (snd r)) = (f + 1)%Z).
Proof.
  intros r f. subst r. rewrite run_sequence_unfold.
  destruct (transform experiment sequence) as [err|sequence'].
  { exists []. cbn [snd fst]. unfold shown. simpl. rewrite app_nil_r.
    repeat split; [constructor|constructor|done]. }
  pose proof (λ Hm : monotone_reports experiment tracker force,
                Hm sequence' (ext st)) as Hsorted.
  destruct (execute experiment tracker sequence' force (ext st))
    as [execution x]. cbn [fst] in Hsorted. cbv beta zeta iota.
  set (values := map (reported f) (reports execution)).
  assert (Forall (λ v, inject_Z f <= v <= inject_Z (f + 1))%Q values) as Hvalues.
  { apply List.Forall_map, Forall_forall. intros p _.
    apply reported_between. }
  assert (Forall (λ v, inject_Z f <= v <= inject_Z (f + 1))%Q
            (values ++ [inject_Z (f + 1)])) as Hpushed.
  { apply Forall_app. split; [done|]. constructor; [|constructor].
    split; [apply inject_Z_le; lia|apply Qle_refl]. }
  assert (monotone_reports experiment tracker force →
          StronglySorted Qle (values ++ [inject_Z (f + 1)])) as Hsorted'.
  { intros Hm. apply StronglySorted_app_2.
    - intros v v' Hv ->%list_elem_of_singleton.
      rewrite Forall_forall in Hvalues. by apply Hvalues.
    - by apply reported_sorted, Hsorted.
    - repeat constructor. }
  assert (∀ st', progress st' = progress (executed sequence sequence' force
                                            execution x st) →
            shown (with_progress push st')
            = shown st ++ values ++ [inject_Z (f + 1)]
            ∧ _finished (progress (with_progress push st')) = (f + 1)%Z)
    as Hpush.
  { intros st' Hst'. unfold shown, with_progress.
    cbn [progress push bar updates update_absolute _finished].
    rewrite Hst', executed_updates, executed_finished.
    by rewrite <- app_assoc. }
  assert (shown (executed sequence sequence' force execution x st)
          = shown st ++ values) as Hexecuted.
  { unfold shown. by rewrite executed_updates. }
  assert (shown (executed sequence sequence' force execution x st)
            = shown st ++ values
          ∧ Forall (λ v, inject_Z f <= v <= inject_Z (f + 1))%Q values
          ∧ (monotone_reports experiment tracker force →
             StronglySorted Qle values)) as Hstopped.
  { split; [done|]. split; [done|]. intros Hm. by apply reported_sorted, Hsorted. }
  destruct (raised execution) as [[msg| |te|kind|]|]; cbn [fst snd].
  - exists values. by destruct Hstopped as (? & ? & ?).
  - exists values. by destruct Hstopped as (? & ? & ?).
  - destruct persist; cbn [fst snd].
    + exists (values ++ [inject_Z (f + 1)]).
      destruct (Hpush (logged experiment te
                  (executed sequence sequence' force execution x st)))
        as [-> ->]; [by rewrite logged_progress|done].
    + exists values. unfold shown in *. rewrite logged_progress.
      by destruct Hstopped as (? & ? & ?).
  - exists values. by destruct Hstopped as (? & ? & ?).
  - exists values. by destruct Hstopped as (? & ? & ?).
  - exists (values ++ [inject_Z (f + 1)]).
    destruct (Hpush (executed sequence sequence' force execution x st))
      as [-> ->]; done.
Qed.

(** What a batch adds to the history. *)
Lemma run_loop_history experiment tracker force persist sequences st :
  let f := _finished (progress st) in
  ∃ extra,
    shown (snd (run_loop experiment tracker force persist sequences st))
      = shown st ++ extra
    ∧ Forall (λ v, inject_Z f <= v
                   <= inject_Z (f + Z.of_nat (length sequences)))%Q extra
    ∧ (monotone_reports experiment tracker force → StronglySorted Qle extra).
Proof.
  revert st. induction sequences as [|s rest IH]; intros st f.
  { exists []. simpl. rewrite app_nil_r. repeat split; constructor. }
  rewrite run_loop_cons.
  destruct (run_sequence_history experiment tracker force persist s st)
    as (extra1 & Hshown1 & Hall1 & Hsorted1 & Hf1).
  fold f in Hall1, Hf1.
  destruct (run_sequence experiment tracker force persist s st)
    as [[err|[]] st'] eqn:Hrun; cbn [fst snd] in *.
  - exists extra1. split; [done|]. split; [|done].
    eapply Forall_impl; [apply Hall1|]. intros v [Hlo Hhi]. split; [done|].
    eapply Qle_trans; [apply Hhi|]. apply inject_Z_le. simpl length. lia.
  - destruct (IH st') as (extra2 & Hshown2 & Hall2 & Hsorted2).
    rewrite Hf1 in Hall2 by done.
    exists (extra1 ++ extra2). rewrite Hshown2, Hshown1, <- app_assoc.
    split; [done|]. split.
    + apply Forall_app. split.
      * eapply Forall_impl; [apply Hall1|]. intros v [Hlo Hhi]. split; [done|].
        eapply Qle_trans; [apply Hhi|]. apply inject_Z_le. simpl length. lia.
      * eapply Forall_impl; [apply Hall2|]. intros v [Hlo Hhi]. split.
        -- eapply Qle_trans; [|apply Hlo]. apply inject_Z_le. lia.
        -- eapply Qle_trans; [apply Hhi|]. apply inject_Z_le. simpl length. lia.
    + intros Hm. apply StronglySorted_app_2; [|by apply Hsorted1|by apply Hsorted2].
      intros v1 v2 Hv1 Hv2. rewrite Forall_forall in Hall1, Hall2.
      eapply Qle_trans; [apply (Hall1 v1 Hv1)|apply (Hall2 v2 Hv2)].
Qed.

(** X8: whatever [execute] reports and however the run ends, every
    position the bar is set to lies between 0 and the number of
    sequences. *)
Theorem run_experiment_bar_within_total experiment tracker sequences
    force persist x :
  Forall (λ v, 0 <= v <= inject_Z (Z.of_nat (length sequences)))%Q
    (shown (snd (run_experiment experiment tracker sequences force persist x))).
Proof.
  unfold run_experiment.
  destruct (run_loop_history experiment tracker force persist sequences
              (initial_state experiment tracker sequences x))
    as (extra & -> & Hall & _).
  apply Hall.
Qed.

(** X12: when every call of [execute] reports values that do not
    decrease, the bar never moves backwards over the whole run, whatever
    [persist] is and however the run ends. *)
Theorem run_experiment_bar_never_goes_back experiment tracker sequences
    force persist x :
  monotone_reports experiment tracker force →
  StronglySorted Qle
    (shown (snd (run_experiment experiment tracker sequences force persist x))).
Proof.
  unfold run_experiment. intros Hm.
  destruct (run_loop_history experiment tracker force persist sequences
              (initial_state experiment tracker sequences x))
    as (extra & -> & _ & Hsorted).
  by apply Hsorted.
Qed.

End BarHistory.

Lemma run_experiment_bar_never_goes_back_witness :
  StronglySorted Qle
    (shown (snd (@run_experiment nat Sample.steady (Sample.baseline None)
                   Sample.tracker
                   [Sample.clip "a"; Sample.clip "bad"; Sample.clip "c"]
                   false true 0%nat))).
Proof.
  apply (@run_experiment_bar_never_goes_back nat Sample.steady
           (Sample.baseline None) Sample.tracker
           [Sample.clip "a"; Sample.clip "bad"; Sample.clip "c"]
           false true 0%nat).
  intros sequence n. simpl.
  repeat constructor; unfold Qle; simpl; lia.
Defined.

(** ** Where an exception comes from *)

Section RunLoopRaises.
Context {Ext : Type} `{Protocol Ext}.
Implicit Types (st : LoopState Ext) (x : Ext).

Lemma run_loop_raises experiment tracker force persist sequences st st' err :
  run_loop experiment tracker force persist sequences st = (inl err, st') →
  ∃ pre sequence post st1,
    sequences = pre ++ sequence :: post
    ∧ run_loop experiment tracker force persist pre st = (inr (), st1)
    ∧ (fatal_error experiment tracker force sequence (ext st1) = Some err
       ∨ (persist = false
          ∧ ∃ sequence' te,
              transform experiment sequence = inr sequence'
              ∧ raised (fst (execute experiment tracker sequence' force (ext st1)))
                = Some (TrackerExc te)
              ∧ err = TrackerExc te)).
Proof.
  revert st. induction sequences as [|s rest IH]; intros st; [done|].
  rewrite run_loop_cons.
  destruct (run_sequence experiment tracker force persist s st)
    as [[err'|[]] st2] eqn:Hrun.
  - intros [= -> ->]. exists [], s, rest, st. split; [done|]. split; [done|].
    rewrite run_sequence_unfold in Hrun. unfold fatal_error.
    destruct (transform experiment s) as [e|s']; [left; congruence|].
    destruct (execute experiment tracker s' force (ext st))
      as [execution x] eqn:Hex.
    cbv beta zeta iota in Hrun. cbn [fst].
    destruct (raised execution) as [[msg| |te|kind|]|] eqn:Hraised;
      try (left; simpl; congruence).
    destruct persist; [done|]. right. split; [done|].
    exists s', te. rewrite Hex. split; [done|]. split; [done|]. congruence.
  - intros (pre & sequence & post & st1 & -> & Hpre & Hcause)%IH.
    exists (s :: pre), sequence, post, st1. split; [done|].
    split; [|done]. by rewrite run_loop_cons, Hrun.
Qed.

(** X13: [run_experiment] raises nothing of its own.  When it ends in an
    exception, the loop had come to some sequence and the exception is
    what [transform] raised for it, or what [execute] raised for it and
    was not a [TrackerException], or, only with [persist=false], the
    [TrackerException] that [execute] raised for it. *)
Theorem run_experiment_raises_only_what_was_raised experiment tracker
    sequences force persist x st err :
  run_experiment experiment tracker sequences force persist x = (inl err, st) →
  ∃ pre sequence post st1,
    sequences = pre ++ sequence :: post
    ∧ run_loop experiment tracker force persist pre
        (initial_state experiment tracker sequences x) = (inr (), st1)
    ∧ (fatal_error experiment tracker force sequence (ext st1) = Some err
       ∨ (persist = false
          ∧ ∃ sequence' te,
              transform experiment sequence = inr sequence'
              ∧ raised (fst (execute experiment tracker sequence' force (ext st1)))
                = Some (TrackerExc te)
              ∧ err = TrackerExc te)).
Proof. apply run_loop_raises. Qed.

End RunLoopRaises.

Lemma run_experiment_raises_only_what_was_raised_witness :
  ∃ pre sequence post st1,
    [Sample.clip "bad"; Sample.clip "ugly"; Sample.clip "c"]
      = pre ++ sequence :: post
    ∧ @run_loop nat Sample.counting (Sample.baseline None) Sample.tracker
        false true pre
        (initial_state (Sample.baseline None) Sample.tracker
           [Sample.clip "bad"; Sample.clip "ugly"; Sample.clip "c"] 0%nat)
      = (inr (), st1)
    ∧ (@fatal_error nat Sample.counting (Sample.baseline None) Sample.tracker
         false sequence (ext st1) = Some (OtherError "KeyError")
       ∨ (true = false
          ∧ ∃ sequence' te,
              transform (Sample.baseline None) sequence = inr sequence'
              ∧ raised (fst (@execute nat Sample.counting (Sample.baseline None)
                               Sample.tracker sequence' false (ext st1)))
                = Some (TrackerExc te)
              ∧ OtherError "KeyError" = TrackerExc te)).
Proof.
  apply (@run_experiment_raises_only_what_was_raised nat Sample.counting
           (Sample.baseline None) Sample.tracker
           [Sample.clip "bad"; Sample.clip "ugly"; Sample.clip "c"]
           false true 0%nat
           (snd (@run_experiment nat Sample.counting (Sample.baseline None)
                   Sample.tracker
                   [Sample.clip "bad"; Sample.clip "ugly"; Sample.clip "c"]
                   false true 0%nat))).
  reflexivity.
Defined.
